(** * youtube-publisher-worker: the HTTP front-end of [src/index.js]

    A shallow embedding of the two Express route handlers of
    [src/index.js] (the job submission endpoint [POST /publish/youtube]
    and the status endpoint [GET /jobs/:id]) and the properties of the
    specification that concern them.

    The handlers are [async] functions that talk to a job queue
    ([queue.add], [queue.getJob], [job.progress()], [job.getState()]).
    The queue object comes from [initQueue()] of [./queue.js], which is
    not part of the sources; the handlers are therefore embedded as
    programs over the four queue calls they make ([Async]), and run
    against any implementation of those calls ([Queue]). *)

From Stdlib Require Import ZArith Lia Sorted Ascii.
From stdpp Require Import base option list gmap strings pretty numbers.

#[local] Set Warnings "-register-all".

Local Open Scope string_scope.
Local Open Scope Z_scope.

(** ** JavaScript values *)

Module Js.

(** A JavaScript Number, as far as the handlers produce one: literals and
    the results of [parseInt], which are [NaN], a double with an integer
    value, or an infinity. Negative zero is not told apart from zero. *)
Inductive Number : Type :=
| NaN
| Int (z : Z)
| Infinity (negative : bool).

(** JSON-shaped values: what [bodyParser.json()] puts in [req.body], what
    is handed to [res.json] and what is stored as job data. An object is
    the list of its own properties in insertion order. *)
Inductive Value : Type :=
| Undefined
| Null
| Bool (b : bool)
| Num (n : Number)
| Str (s : string)
| Arr (items : list Value)
| Obj (props : list (string * Value)).

(** ToBoolean *)
Definition truthy (v : Value) : bool :=
  match v with
  | Undefined | Null => false
  | Bool b => b
  | Num NaN => false
  | Num (Int z) => negb (z =? 0)
  | Num (Infinity _) => true
  | Str s => negb (String.eqb s "")
  | Arr _ | Obj _ => true
  end.

(** [a || b] *)
Definition or_else (a b : Value) : Value :=
  if truthy a then a else b.

Fixpoint lookup_prop (k : string) (props : list (string * Value)) : Value :=
  match props with
  | [] => Undefined
  | (k', v) :: rest => if String.eqb k k' then v else lookup_prop k rest
  end.

(** [v.k] for a property name [k] that is neither an array index nor
    inherited from a prototype: only objects have such own properties. *)
Definition get_prop (v : Value) (k : string) : Value :=
  match v with
  | Obj props => lookup_prop k props
  | _ => Undefined
  end.

Definition keys (v : Value) : list string :=
  match v with
  | Obj props => props.*1
  | _ => []
  end.

(** *** [parseInt(string)] with no radix argument *)

(** A [string] holds the UTF-8 bytes of the JavaScript string. *)

(** The ASCII white space and line terminators stripped by [parseInt]:
    TAB, LF, VT, FF, CR and SP. *)
Definition is_space (c : ascii) : bool :=
  let n := N_of_ascii c in
  ((9 <=? n) && (n <=? 13) || (n =? 32))%N.

(** The white space of two bytes: the no-break space U+00A0. *)
Definition is_space2 (c1 c2 : ascii) : bool :=
  ((N_of_ascii c1 =? 194) && (N_of_ascii c2 =? 160))%N.

(** The white space and line terminators of three bytes: U+1680,
    U+2000 to U+200A, U+2028, U+2029, U+202F, U+205F, U+3000 and the
    byte order mark U+FEFF. *)
Definition is_space3 (c1 c2 c3 : ascii) : bool :=
  let a := N_of_ascii c1 in
  let b := N_of_ascii c2 in
  let c := N_of_ascii c3 in
  ((a =? 225) && (b =? 154) && (c =? 128)
   || (a =? 226) && (b =? 128)
      && ((128 <=? c) && (c <=? 138) || (c =? 168) || (c =? 169) || (c =? 175))
   || (a =? 226) && (b =? 129) && (c =? 159)
   || (a =? 227) && (b =? 128) && (c =? 128)
   || (a =? 239) && (b =? 187) && (c =? 191))%N.

(** The string without its leading white space. *)
Fixpoint trim_start (s : string) : string :=
  match s with
  | String c1 r1 =>
      if is_space c1 then trim_start r1
      else if (N_of_ascii c1 <? 128)%N then s
      else
        match r1 with
        | String c2 r2 =>
            if is_space2 c1 c2 then trim_start r2
            else
              match r2 with
              | String c3 r3 => if is_space3 c1 c2 c3 then trim_start r3 else s
              | EmptyString => s
              end
        | EmptyString => s
        end
  | EmptyString => s
  end.

(** The value of a character as a digit, in any radix up to 36. *)
Definition digit_val (c : ascii) : option Z :=
  let n := Z.of_N (N_of_ascii c) in
  if (48 <=? n) && (n <=? 57) then Some (n - 48)
  else if (97 <=? n) && (n <=? 122) then Some (n - 87)
  else if (65 <=? n) && (n <=? 90) then Some (n - 55)
  else None.

(** The longest prefix of [s] made of radix-[radix] digits, as a number;
    [acc] is the value read so far ([None]: no digit yet). *)
Fixpoint digits (radix : Z) (s : string) (acc : option Z) : option Z :=
  match s with
  | String c rest =>
      match digit_val c with
      | Some d =>
          if d <? radix
          then digits radix rest (Some (default 0 acc * radix + d))
          else acc
      | None => acc
      end
  | EmptyString => acc
  end.

(** The double nearest to a natural number, ties going to the even
    significand of 53 bits; [None] when that is beyond the largest
    double. *)
Definition nearest_double (n : Z) : option Z :=
  if n <? 9007199254740992 then Some n
  else
    let e := Z.log2 n - 52 in
    let q := Z.shiftr n e in
    let r := n - Z.shiftl q e in
    let half := Z.shiftl 1 (e - 1) in
    let q' := if (half <? r) || ((r =? half) && Z.odd q) then q + 1 else q in
    let d := Z.shiftl q' e in
    if d <? 2 ^ 1024 then Some d else None.

(** The Number for the integer of sign [sign] and magnitude [n]. *)
Definition of_integer (sign n : Z) : Number :=
  match nearest_double n with
  | Some d => Int (sign * d)
  | None => Infinity (sign <? 0)
  end.

Definition parseInt (s : string) : Number :=
  let s1 := trim_start s in
  let '(sign, s2) :=
    match s1 with
    | String "-" rest => (-1, rest)
    | String "+" rest => (1, rest)
    | _ => (1, s1)
    end in
  let '(radix, s3) :=
    match s2 with
    | String "0" (String "x" rest) | String "0" (String "X" rest) => (16, rest)
    | _ => (10, s2)
    end in
  match digits radix s3 None with
  | None => NaN
  | Some n => of_integer sign n
  end.

(** An [Error] object, as far as the handlers look at it. *)
Record Error : Type := { name : string; message : string }.

End Js.
Import Js.

(** [process.env]: the variables that are set, with their string values. *)
Abbreviation Env := (gmap string string).

(** [process.env.K || d]: an unset variable reads [undefined] and an empty
    one reads [''], both falsy. *)
Definition env_or (env : Env) (k d : string) : string :=
  match env !! k with
  | Some s => if String.eqb s "" then d else s
  | None => d
  end.

(** ** Requests, responses and the queue interface *)

(** What the handlers read of the request: [req.body] (set by
    [bodyParser.json()]) and the route parameter [req.params.id]. *)
Record Request : Type := { body : Value; params_id : string }.

(** What the handlers send: the status code ([200] unless [res.status] was
    called) and the value given to [res.json]. *)
Record Response : Type := { status : Z; json : Value }.

Definition res_json (v : Value) : Response := {| status := 200; json := v |}.
Definition res_status_json (code : Z) (v : Value) : Response :=
  {| status := code; json := v |}.

(** A job object handed out by the queue: its [id] and [data] properties.
    Its methods [progress()] and [getState()] are queue calls. *)
Record Job : Type := { job_id : string; job_data : Value }.

(** The calls the handlers make on the queue and on its jobs. *)
Inductive Call : Type :=
| QueueAdd (name : string) (data opts : Value)
| QueueGetJob (id : string)
| JobProgress (job : Job)
| JobGetState (job : Job).

(** What each call's promise resolves to. *)
Definition answer (c : Call) : Type :=
  match c with
  | QueueAdd _ _ _ => Job
  | QueueGetJob _ => option Job
  | JobProgress _ => Value
  | JobGetState _ => string
  end.

(** A settled promise. *)
Inductive Settled (A : Type) : Type :=
| Fulfilled (a : A)
| Rejected (e : Error).
Arguments Fulfilled {A} a.
Arguments Rejected {A} e.

(** The body of an [async] function: it returns, throws, or awaits a queue
    call and goes on with the settled promise. *)
Inductive Async (A : Type) : Type :=
| Return (a : A)
| Throw (e : Error)
| Await (c : Call) (k : Settled (answer c) -> Async A).
Arguments Return {A} a.
Arguments Throw {A} e.
Arguments Await {A} c k.

Fixpoint async_bind {A B : Type} (f : A -> Async B) (p : Async A) : Async B :=
  match p with
  | Return a => f a
  | Throw e => Throw e
  | Await c k => Await c (fun s => async_bind f (k s))
  end.

#[global] Instance Async_ret : MRet Async := @Return.
#[global] Instance Async_bind : MBind Async := @async_bind.

(** [await c]: a rejected promise is thrown at the [await]. *)
Definition await (c : Call) : Async (answer c) :=
  Await c (fun s => match s with
                    | Fulfilled a => Return a
                    | Rejected e => Throw e
                    end).

(** [try { p } catch (error) { h error }] *)
Fixpoint try_catch {A : Type} (p : Async A) (h : Error -> Async A) : Async A :=
  match p with
  | Return a => Return a
  | Throw e => h e
  | Await c k => Await c (fun s => try_catch (k s) h)
  end.

(** ** The handlers of [src/index.js] *)

(** [const { accountId, filePath, thumbnailPath, metadata, idempotencyKey }
    = req.body]. *)
Record Submission : Type := {
  accountId : Value;
  filePath : Value;
  thumbnailPath : Value;
  metadata : Value;
  idempotencyKey : Value;
}.

(** [undefined] and [null] have no properties to read. *)
Definition nullish (v : Value) : bool :=
  match v with
  | Undefined | Null => true
  | _ => false
  end.

(** The five properties read off a value, [undefined] for the missing
    ones. *)
Definition fields_of (b : Value) : Submission :=
  {| accountId := get_prop b "accountId";
     filePath := get_prop b "filePath";
     thumbnailPath := get_prop b "thumbnailPath";
     metadata := get_prop b "metadata";
     idempotencyKey := get_prop b "idempotencyKey" |}.

(** Destructuring [undefined] or [null] throws a [TypeError] that says
    which of the two [req.body] was. *)
Definition cannot_destructure (b : Value) : Error :=
  {| name := "TypeError";
     message := "Cannot destructure property 'accountId' of 'req.body' as it is "
                +:+ match b with
                    | Null => "null"
                    | _ => "undefined"
                    end +:+ "." |}.

Definition destructure (b : Value) : Async Submission :=
  if nullish b then Throw (cannot_destructure b) else Return (fields_of b).

(** The job data given to [queue.add]. *)
Definition upload_data (env : Env) (sub : Submission) : Value :=
  Obj [ ("accountId", accountId sub);
        ("filePath", filePath sub);
        ("thumbnailPath", thumbnailPath sub);
        ("metadata", metadata sub);
        ("idempotencyKey", idempotencyKey sub);
        ("uploadedBytes", Num (Int 0));
        ("chunkSize", Num (parseInt (env_or env "CHUNK_SIZE" "8388608"))) ].

(** The job options given to [queue.add]. *)
Definition upload_opts (env : Env) : Value :=
  Obj [ ("attempts", Num (parseInt (env_or env "MAX_RETRIES" "5")));
        ("backoff", Obj [ ("type", Str "exponential");
                          ("delay", Num (Int 2000)) ]) ].

(** [app.post('/publish/youtube', async (req, res) => ...)]. The
    destructuring stands before the [try]: what it throws is not caught. *)
Definition post_publish_youtube (env : Env) (req : Request) : Async Response :=
  sub ← destructure (body req);
  try_catch
    (job ← await (QueueAdd "youtube-upload" (upload_data env sub) (upload_opts env));
     mret (res_json (Obj [ ("jobId", Str (job_id job)) ])))
    (fun error =>
       mret (res_status_json 400 (Obj [ ("error", Str (message error)) ]))).

(** [app.get('/jobs/:id', async (req, res) => ...)]. Nothing is caught
    here: a rejected queue call rejects the handler. *)
Definition get_jobs_id (req : Request) : Async Response :=
  found ← await (QueueGetJob (params_id req));
  match found with
  | None => mret (res_status_json 404 (Obj [ ("error", Str "Job not found") ]))
  | Some job =>
      progress ← await (JobProgress job);
      state ← await (JobGetState job);
      mret (res_json (Obj [ ("id", Str (job_id job));
                            ("state", Str state);
                            ("progress", or_else progress (Num (Int 0)));
                            ("data", job_data job) ]))
  end.

(** ** Running a handler against a queue *)

(** An implementation of the queue calls over a state [Q]: each call
    settles its promise and leaves a new state. *)
Class Queue (Q : Type) : Type :=
  perform : forall c : Call, Q -> Settled (answer c) * Q.

(** The result of running a handler: how its promise settled (a handler
    that rejects has sent no response), the queue it left, and the calls
    it made, in order. *)
Record Ran (A Q : Type) : Type := {
  outcome : Settled A;
  final : Q;
  calls : list Call;
}.
Arguments outcome {A Q} r.
Arguments final {A Q} r.
Arguments calls {A Q} r.

Definition logged {A Q : Type} (c : Call) (r : Ran A Q) : Ran A Q :=
  {| outcome := outcome r; final := final r; calls := c :: calls r |}.

Fixpoint run {Q : Type} `{Queue Q} {A : Type} (p : Async A) (q : Q) : Ran A Q :=
  match p with
  | Return a => {| outcome := Fulfilled a; final := q; calls := [] |}
  | Throw e => {| outcome := Rejected e; final := q; calls := [] |}
  | Await c k => let '(s, q') := perform c q in logged c (run (k s) q')
  end.

(** The jobs a run enqueued: the data and options of its [queue.add]
    calls. *)
Definition enqueued (cs : list Call) : list (string * Value * Value) :=
  omap (fun c => match c with
                 | QueueAdd n d o => Some (n, d, o)
                 | _ => None
                 end) cs.

(** ** An in-memory queue *)

Module MemQueue.

(** Modelled from the spec: the queue built by [initQueue()] of
    [./queue.js], which the sources do not contain. It follows the Job
    Queue contract of the specification: [enqueue(jobSpec, options) ->
    jobId] assigns a fresh identifier and creates the job in the queued
    state with no progress; [getStatus] reads state and progress back;
    [complete(jobId, resourceId)] records the uploaded resource. *)
Record Entry : Type := {
  data : Value;
  opts : Value;
  state : string;
  progress : Value;
  resource : option string;
}.

Record t : Type := { next : N; jobs : gmap string Entry }.

Definition empty : t := {| next := 1; jobs := ∅ |}.

Definition enqueue (d o : Value) (q : t) : Job * t :=
  let id := pretty (next q) in
  ({| job_id := id; job_data := d |},
   {| next := (next q + 1)%N;
      jobs := <[id := {| data := d; opts := o; state := "queued";
                         progress := Num (Int 0); resource := None |}]> (jobs q) |}).

Definition getJob (id : string) (q : t) : option Job :=
  (fun e => {| job_id := id; job_data := data e |}) <$> jobs q !! id.

(** A direct write to the stored progress of a job, with none of the
    checks of [reportProgress]: it sets up stores that hold a progress the
    queue itself would not have recorded. *)
Definition storeProgress (id : string) (p : Value) (q : t) : t :=
  {| next := next q;
     jobs := alter (fun e => {| data := data e; opts := opts e; state := state e;
                                progress := p; resource := resource e |})
                   id (jobs q) |}.

Definition complete (id resourceId : string) (q : t) : t :=
  {| next := next q;
     jobs := alter (fun e => {| data := data e; opts := opts e;
                                state := "completed"; progress := progress e;
                                resource := Some resourceId |})
                   id (jobs q) |}.

Definition gone : Error := {| name := "Error"; message := "Missing job" |}.

Definition of_entry {A : Type} (f : Entry -> A) (j : Job) (q : t) : Settled A :=
  match jobs q !! job_id j with
  | Some e => Fulfilled (f e)
  | None => Rejected gone
  end.

#[global] Instance queue : Queue t := fun c q =>
  match c return Settled (answer c) * t with
  | QueueAdd _ d o => let '(j, q') := enqueue d o q in (Fulfilled j, q')
  | QueueGetJob id => (Fulfilled (getJob id q), q)
  | JobProgress j => (of_entry progress j q, q)
  | JobGetState j => (of_entry state j q, q)
  end.

End MemQueue.

(** ** Progress reports *)

Module UploadProgress.

(** Modelled from the spec: [reportProgress(jobId, bytesUploaded)] of the
    Job Queue, which belongs to [./queue.js] and the upload worker, both
    absent from the sources. The specification gives a job an
    uploaded-byte offset and the upload a total byte size, requires the
    offset to be non-decreasing and at most the total size, and lets the
    queue either reject or clamp a report that would break this; the call
    returns an acknowledgement so that the caller sees a rejection. *)
Record Upload : Type := { uploadedBytes : N; totalBytes : N }.

Inductive Policy : Type := Rejecting | Clamping.

Inductive Ack : Type := Accepted | Refused.

Definition record (bytes : N) (u : Upload) : Upload :=
  {| uploadedBytes := bytes; totalBytes := totalBytes u |}.

Definition reportProgress (pol : Policy) (bytesUploaded : N) (u : Upload)
  : Ack * Upload :=
  match pol with
  | Rejecting =>
      if ((uploadedBytes u <=? bytesUploaded)
          && (bytesUploaded <=? totalBytes u))%N
      then (Accepted, record bytesUploaded u)
      else (Refused, u)
  | Clamping =>
      (Accepted,
       record (N.min (totalBytes u) (N.max (uploadedBytes u) bytesUploaded)) u)
  end.

(** A job starts with nothing uploaded. *)
Definition created (total : N) : Upload :=
  {| uploadedBytes := 0; totalBytes := total |}.

(** The offsets recorded after each of a series of reports. *)
Fixpoint offsets (pol : Policy) (reports : list N) (u : Upload) : list N :=
  match reports with
  | [] => []
  | b :: rest =>
      let u' := (reportProgress pol b u).2 in
      uploadedBytes u' :: offsets pol rest u'
  end.

End UploadProgress.

(** ** A queue that cannot be reached *)

Module Unreachable.

(** Modelled from the spec: the queue of [./queue.js] while its durable
    store cannot be reached, so that every call fails with a transport
    error. *)
Definition closed : Error := {| name := "Error"; message := "Connection is closed." |}.

#[global] Instance queue : Queue unit := fun c q => (Rejected closed, q).

End Unreachable.

Definition req_post (b : Value) : Request := {| body := b; params_id := "" |}.
Definition req_get (id : string) : Request := {| body := Undefined; params_id := id |}.

(** The one call the submission handler makes on the queue. *)
Definition add_call (env : Env) (req : Request) : Call :=
  QueueAdd "youtube-upload" (upload_data env (fields_of (body req))) (upload_opts env).

(** What the submission handler answers once [queue.add] has settled. *)
Definition submitted (s : Settled Job) : Response :=
  match s with
  | Fulfilled job => res_json (Obj [ ("jobId", Str (job_id job)) ])
  | Rejected error => res_status_json 400 (Obj [ ("error", Str (message error)) ])
  end.

(** The body of a status response. *)
Definition status_body (job : Job) (state : string) (progress : Value) : Value :=
  Obj [ ("id", Str (job_id job));
        ("state", Str state);
        ("progress", or_else progress (Num (Int 0)));
        ("data", job_data job) ].

(** A configuration variable that overrides nothing: unset, or set to the
    empty string. *)
Definition not_configured (env : Env) (k : string) : Prop :=
  env !! k = None \/ env !! k = Some "".

(** ** Sample requests and queues *)

Module Samples.

Definition upload_body : Value :=
  Obj [ ("accountId", Str "acct-1");
        ("filePath", Str "/videos/a.mp4");
        ("idempotencyKey", Str "key-42") ].

(** A payload that tries to set the chunk size and the uploaded bytes. *)
Definition tuned_body : Value :=
  Obj [ ("accountId", Str "acct-1");
        ("filePath", Str "/videos/a.mp4");
        ("chunkSize", Num (Int 1048576));
        ("uploadedBytes", Num (Int 999)) ].

Definition no_env : Env := ∅.
Definition small_chunks : Env := {[ "CHUNK_SIZE" := "4194304" ]}.

(** The queue after a first submission of [upload_body]... *)
Definition first_run : Ran Response MemQueue.t :=
  run (post_publish_youtube no_env (req_post upload_body)) MemQueue.empty.

(** ... whose job has then been uploaded as resource [yt-abc]... *)
Definition first_completed : MemQueue.t :=
  MemQueue.complete "1" "yt-abc" (final first_run).

(** ... and the same submission made again. *)
Definition second_run : Ran Response MemQueue.t :=
  run (post_publish_youtube no_env (req_post upload_body)) first_completed.

(** A submission with none of the fields. *)
Definition empty_run : Ran Response MemQueue.t :=
  run (post_publish_youtube no_env (req_post (Obj []))) MemQueue.empty.

Definition tuned_run : Ran Response MemQueue.t :=
  run (post_publish_youtube no_env (req_post tuned_body)) MemQueue.empty.

(** The status of the first job, and of a job whose progress was reset
    to [null]. *)
Definition status_run : Ran Response MemQueue.t :=
  run (get_jobs_id (req_get "1")) (final first_run).

Definition null_progress : MemQueue.t :=
  MemQueue.storeProgress "1" Null (final first_run).

End Samples.

(** ** The rest of [src/index.js] *)

(** [process.env.K]: the string the variable is set to, or [undefined]. *)
Definition env_value (env : Env) (k : string) : Value :=
  match env !! k with
  | Some s => Str s
  | None => Undefined
  end.

(** [const PORT = process.env.PORT || 3000]: the port handed to
    [app.listen], a string when it comes from the environment. *)
Definition PORT (env : Env) : Value :=
  or_else (env_value env "PORT") (Num (Int 3000)).

(** A decimal digit, the only kind [parseInt] reads in radix 10. *)
Definition is_decimal (c : ascii) : bool :=
  match digit_val c with
  | Some d => d <? 10
  | None => false
  end.

(** Whether a string, once its leading white space is gone, starts with a
    sign or a decimal digit. *)
Definition starts_number (s : string) : bool :=
  match trim_start s with
  | String c _ => is_decimal c || Ascii.eqb c "+" || Ascii.eqb c "-"
  | EmptyString => false
  end.

(** ** A queue that fails after some calls *)

Module Flaky.

(** Modelled from the spec: the queue of [./queue.js] whose durable store
    drops out after a while. The first [budget] calls are served by the
    in-memory queue; every later call fails with a transport error. *)
Record t : Type := { budget : nat; inner : MemQueue.t }.

#[global] Instance queue : Queue t := fun c q =>
  match budget q with
  | O => (Rejected Unreachable.closed, q)
  | S n =>
      let '(s, m) := perform c (inner q) in
      (s, {| budget := n; inner := m |})
  end.

(** A queue holding the job of one submission, good for [n] more calls. *)
Definition after_submission (n : nat) : t :=
  {| budget := n; inner := final Samples.first_run |}.

End Flaky.

(** ** Properties of the handlers *)

Ltac unfold_async :=
  unfold mbind, mret, Async_bind, Async_ret, await in *; cbn [async_bind try_catch run] in *.

Section Handlers.
Context {Q : Type} `{!Queue Q}.
Implicit Types (env : Env) (req : Request) (q : Q) (job : Job).

Lemma run_post_publish env req q :
  nullish (body req) = false ->
  run (post_publish_youtube env req) q =
  {| outcome := Fulfilled (submitted (perform (add_call env req) q).1);
     final := (perform (add_call env req) q).2;
     calls := [add_call env req] |}.
Proof.
  intros Hbody. unfold post_publish_youtube, destructure. rewrite Hbody.
  unfold_async. fold (add_call env req).
  destruct (perform (add_call env req) q) as [[job | error] q']; reflexivity.
Qed.

Lemma run_post_publish_nullish env req q :
  nullish (body req) = true ->
  run (post_publish_youtube env req) q =
  {| outcome := Rejected (cannot_destructure (body req)); final := q; calls := [] |}.
Proof.
  intros Hbody. unfold post_publish_youtube, destructure. rewrite Hbody.
  reflexivity.
Qed.

Lemma run_get_jobs_id_missing req q q1 :
  perform (QueueGetJob (params_id req)) q = (Fulfilled None, q1) ->
  run (get_jobs_id req) q =
  {| outcome := Fulfilled (res_status_json 404 (Obj [ ("error", Str "Job not found") ]));
     final := q1;
     calls := [QueueGetJob (params_id req)] |}.
Proof.
  intros Hget. unfold get_jobs_id. unfold_async. rewrite Hget. reflexivity.
Qed.

Lemma run_get_jobs_id_found req q job q1 p q2 s q3 :
  perform (QueueGetJob (params_id req)) q = (Fulfilled (Some job), q1) ->
  perform (JobProgress job) q1 = (Fulfilled p, q2) ->
  perform (JobGetState job) q2 = (Fulfilled s, q3) ->
  run (get_jobs_id req) q =
  {| outcome := Fulfilled (res_json (status_body job s p));
     final := q3;
     calls := [QueueGetJob (params_id req); JobProgress job; JobGetState job] |}.
Proof.
  intros Hget Hprogress Hstate. unfold get_jobs_id. unfold_async.
  rewrite Hget. unfold_async. rewrite Hprogress. unfold_async.
  rewrite Hstate. reflexivity.
Qed.

(** The status handler starts by asking the queue for the job under the
    id of the route. *)
Lemma get_jobs_id_first_call req q :
  head (calls (run (get_jobs_id req) q)) = Some (QueueGetJob (params_id req)).
Proof.
  unfold get_jobs_id. unfold_async.
  destruct (perform (QueueGetJob (params_id req)) q) as [settled q1]. reflexivity.
Qed.

End Handlers.

(** *** The submission endpoint *)

(** C1, as stated, fails: a submission whose idempotency key equals that of
    a completed job is enqueued again as job 2 and answered with the new
    job id, not with the resource of the first upload. *)
Lemma C1_resubmission_is_enqueued_again :
  let first := MemQueue.jobs Samples.first_completed !! "1" in
  MemQueue.state <$> first = Some "completed" /\
  MemQueue.resource <$> first = Some (Some "yt-abc") /\
  (fun e => get_prop (MemQueue.data e) "idempotencyKey") <$> first
    = Some (get_prop Samples.upload_body "idempotencyKey") /\
  length (enqueued (calls Samples.second_run)) = 1%nat /\
  outcome Samples.second_run = Fulfilled (res_json (Obj [ ("jobId", Str "2") ])) /\
  size (MemQueue.jobs (final Samples.second_run)) = 2%nat.
Proof. vm_compute. repeat split. Qed.

(** C1, amended: the submission endpoint consults no idempotency record.
    Whatever the idempotency key and whatever the queue holds, a
    submission with a body makes exactly one [queue.add] call, whose job
    data carries the key of the payload unchanged, and that call alone
    decides the rest: the queue is left as the call left it, and the
    answer is 200 with the id of the job the call returned, or 400 with
    the message of the error it failed with. *)
Theorem C1_every_submission_is_enqueued
    {Q : Type} `{!Queue Q} (env : Env) (req : Request) (q : Q) :
  nullish (body req) = false ->
  let add :=
    QueueAdd "youtube-upload" (upload_data env (fields_of (body req))) (upload_opts env) in
  let r := run (post_publish_youtube env req) q in
  calls r = [add] /\
  get_prop (upload_data env (fields_of (body req))) "idempotencyKey"
    = get_prop (body req) "idempotencyKey" /\
  final r = (perform add q).2 /\
  outcome r
    = Fulfilled
        match (perform add q).1 with
        | Fulfilled job => {| status := 200; json := Obj [ ("jobId", Str (job_id job)) ] |}
        | Rejected error => {| status := 400; json := Obj [ ("error", Str (message error)) ] |}
        end.
Proof.
  intros Hbody add r. subst add r. rewrite run_post_publish by assumption.
  repeat split.
Qed.

Lemma C1_every_submission_is_enqueued_witness :
  let add :=
    QueueAdd "youtube-upload"
      (upload_data Samples.no_env (fields_of Samples.upload_body))
      (upload_opts Samples.no_env) in
  calls Samples.second_run = [add] /\
  get_prop (upload_data Samples.no_env (fields_of Samples.upload_body)) "idempotencyKey"
    = Str "key-42" /\
  final Samples.second_run = (perform add Samples.first_completed).2 /\
  outcome Samples.second_run
    = Fulfilled
        match (perform add Samples.first_completed).1 with
        | Fulfilled job => {| status := 200; json := Obj [ ("jobId", Str (job_id job)) ] |}
        | Rejected error => {| status := 400; json := Obj [ ("error", Str (message error)) ] |}
        end.
Proof.
  apply (C1_every_submission_is_enqueued Samples.no_env
           (req_post Samples.upload_body) Samples.first_completed).
  reflexivity.
Defined.

(** C2, as stated, fails: the submission [{}], with neither account nor
    file, is answered 200 and sits in the queue as job 1. *)
Lemma C2_empty_submission_is_enqueued :
  outcome Samples.empty_run = Fulfilled (res_json (Obj [ ("jobId", Str "1") ])) /\
  (fun e => (get_prop (MemQueue.data e) "accountId",
             get_prop (MemQueue.data e) "filePath"))
    <$> MemQueue.jobs (final Samples.empty_run) !! "1"
    = Some (Undefined, Undefined).
Proof. vm_compute. split; reflexivity. Qed.

(** C2, amended: the submission endpoint validates nothing. Every
    submission with a body is handed to [queue.add], the fields missing
    from the payload as [undefined]; it is answered, and the answer is a
    400 exactly when [queue.add] itself failed, with that error's
    message. *)
Theorem C2_only_the_queue_rejects
    {Q : Type} `{!Queue Q} (env : Env) (req : Request) (q : Q) :
  nullish (body req) = false ->
  let r := run (post_publish_youtube env req) q in
  let added := (perform (add_call env req) q).1 in
  enqueued (calls r)
    = [("youtube-upload", upload_data env (fields_of (body req)), upload_opts env)] /\
  exists resp,
    outcome r = Fulfilled resp /\
    (status resp = 400 <-> exists e, added = Rejected e) /\
    (forall e, added = Rejected e -> json resp = Obj [ ("error", Str (message e)) ]).
Proof.
  intros Hbody r added. subst r added. rewrite run_post_publish by assumption.
  split; [reflexivity |]. eexists. split; [reflexivity |].
  destruct (perform (add_call env req) q).1 as [job | e]; cbn; split.
  - split; [discriminate | intros [e He]; discriminate].
  - intros e He; discriminate.
  - split; [eauto | reflexivity].
  - intros e' [= ->]. reflexivity.
Qed.

Lemma C2_only_the_queue_rejects_witness :
  enqueued (calls Samples.empty_run)
    = [("youtube-upload",
        upload_data Samples.no_env (fields_of (Obj [])), upload_opts Samples.no_env)] /\
  exists resp,
    outcome Samples.empty_run = Fulfilled resp /\
    (status resp = 400 <->
     exists e, (perform (add_call Samples.no_env (req_post (Obj []))) MemQueue.empty).1
               = Rejected e) /\
    (forall e,
       (perform (add_call Samples.no_env (req_post (Obj []))) MemQueue.empty).1
       = Rejected e ->
       json resp = Obj [ ("error", Str (message e)) ]).
Proof.
  apply (C2_only_the_queue_rejects Samples.no_env (req_post (Obj [])) MemQueue.empty).
  reflexivity.
Defined.

(** The 400 answer does occur: with the queue down, the submission is
    answered with the message of the error [queue.add] threw. *)
Example post_publish_queue_down :
  outcome (run (post_publish_youtube Samples.no_env (req_post Samples.upload_body)) tt)
  = Fulfilled (res_status_json 400 (Obj [ ("error", Str "Connection is closed.") ])).
Proof. reflexivity. Qed.

(** A missing body is not answered at all: the destructuring throws before
    the [try], and nothing is enqueued. *)
Example post_publish_no_body :
  run (post_publish_youtube Samples.no_env (req_post Undefined)) MemQueue.empty
  = {| outcome := Rejected (cannot_destructure Undefined);
       final := MemQueue.empty; calls := [] |}.
Proof. reflexivity. Qed.

(** C4: with [CHUNK_SIZE] and [MAX_RETRIES] not configured, the job is
    enqueued with chunk size 8388608, 5 attempts and an exponential
    backoff of 2000 ms. *)
Theorem C4_default_options
    {Q : Type} `{!Queue Q} (env : Env) (req : Request) (q : Q) :
  not_configured env "CHUNK_SIZE" ->
  not_configured env "MAX_RETRIES" ->
  nullish (body req) = false ->
  exists data,
    enqueued (calls (run (post_publish_youtube env req) q))
      = [("youtube-upload", data,
          Obj [ ("attempts", Num (Int 5));
                ("backoff", Obj [ ("type", Str "exponential");
                                  ("delay", Num (Int 2000)) ]) ])] /\
    get_prop data "chunkSize" = Num (Int 8388608).
Proof.
  intros Hchunk Hretries Hbody. rewrite run_post_publish by assumption.
  exists (upload_data env (fields_of (body req))).
  unfold add_call, upload_opts, upload_data, env_or.
  destruct Hchunk as [-> | ->], Hretries as [-> | ->]; split; reflexivity.
Qed.

Lemma C4_default_options_witness :
  exists data,
    enqueued (calls Samples.tuned_run)
      = [("youtube-upload", data,
          Obj [ ("attempts", Num (Int 5));
                ("backoff", Obj [ ("type", Str "exponential");
                                  ("delay", Num (Int 2000)) ]) ])] /\
    get_prop data "chunkSize" = Num (Int 8388608).
Proof.
  apply (C4_default_options Samples.no_env (req_post Samples.tuned_body) MemQueue.empty).
  - left. reflexivity.
  - left. reflexivity.
  - reflexivity.
Defined.

(** C5, as stated, fails: a payload asking for 1 MiB chunks gets a job
    with the default 8 MiB, and with [CHUNK_SIZE=4194304] in the
    environment it gets 4 MiB. *)
Lemma C5_payload_chunk_size_is_ignored :
  get_prop Samples.tuned_body "chunkSize" = Num (Int 1048576) /\
  (fun '(_, data, _) => get_prop data "chunkSize") <$> enqueued (calls Samples.tuned_run)
    = [Num (Int 8388608)] /\
  (fun '(_, data, _) => get_prop data "chunkSize")
    <$> enqueued (calls (run (post_publish_youtube Samples.small_chunks
                                (req_post Samples.tuned_body)) MemQueue.empty))
    = [Num (Int 4194304)].
Proof. vm_compute. repeat split. Qed.

(** C5, amended: the chunk size is configured for the whole process, not
    by the caller. The job of every submission carries
    [parseInt(process.env.CHUNK_SIZE || '8388608')], whatever the payload
    says. *)
Theorem C5_chunk_size_is_process_wide
    {Q : Type} `{!Queue Q} (env : Env) (req : Request) (q : Q) :
  Forall (fun '(_, data, _) =>
            get_prop data "chunkSize"
            = Num (parseInt (env_or env "CHUNK_SIZE" "8388608")))
         (enqueued (calls (run (post_publish_youtube env req) q))) /\
  (nullish (body req) = false ->
   length (enqueued (calls (run (post_publish_youtube env req) q))) = 1%nat).
Proof.
  destruct (nullish (body req)) eqn:Hbody.
  - rewrite run_post_publish_nullish by assumption. split; [constructor | discriminate].
  - rewrite run_post_publish by assumption. split; [| reflexivity].
    repeat constructor.
Qed.

Lemma C5_chunk_size_is_process_wide_witness :
  Forall (fun '(_, data, _) => get_prop data "chunkSize" = Num (Int 4194304))
         (enqueued (calls (run (post_publish_youtube Samples.small_chunks
                                  (req_post Samples.tuned_body)) MemQueue.empty))) /\
  (nullish Samples.tuned_body = false ->
   length (enqueued (calls (run (post_publish_youtube Samples.small_chunks
                                   (req_post Samples.tuned_body)) MemQueue.empty)))
   = 1%nat).
Proof.
  exact (C5_chunk_size_is_process_wide Samples.small_chunks
           (req_post Samples.tuned_body) MemQueue.empty).
Defined.

(** C6: a submission that is accepted (answered 200) is answered with
    [{ jobId }], the id of the job that [queue.add] returned for it; and
    a status inquiry under that id asks the queue for the job with that
    same id. *)
Theorem C6_response_carries_job_id
    {Q : Type} `{!Queue Q} (env : Env) (req : Request) (q : Q) (resp : Response) :
  outcome (run (post_publish_youtube env req) q) = Fulfilled resp ->
  status resp = 200 ->
  exists job,
    perform (QueueAdd "youtube-upload" (upload_data env (fields_of (body req)))
               (upload_opts env)) q
      = (Fulfilled job, final (run (post_publish_youtube env req) q)) /\
    json resp = Obj [ ("jobId", Str (job_id job)) ] /\
    forall later : Q,
      head (calls (run (get_jobs_id (req_get (job_id job))) later))
      = Some (QueueGetJob (job_id job)).
Proof.
  destruct (nullish (body req)) eqn:Hbody.
  - rewrite run_post_publish_nullish by assumption. discriminate.
  - rewrite run_post_publish by assumption. cbn [outcome final].
    unfold add_call.
    destruct (perform _ q) as [[job | e] q']; cbn; intros [= <-] Hstatus.
    + exists job. split; [reflexivity |]. split; [reflexivity |].
      intros later. exact (get_jobs_id_first_call (req_get (job_id job)) later).
    + discriminate.
Qed.

Lemma C6_response_carries_job_id_witness :
  exists job,
    perform (QueueAdd "youtube-upload"
               (upload_data Samples.no_env (fields_of Samples.upload_body))
               (upload_opts Samples.no_env)) Samples.first_completed
      = (Fulfilled job, final Samples.second_run) /\
    json (res_json (Obj [ ("jobId", Str "2") ])) = Obj [ ("jobId", Str (job_id job)) ] /\
    forall later : MemQueue.t,
      head (calls (run (get_jobs_id (req_get (job_id job))) later))
      = Some (QueueGetJob (job_id job)).
Proof.
  apply (C6_response_carries_job_id Samples.no_env (req_post Samples.upload_body)
           Samples.first_completed (res_json (Obj [ ("jobId", Str "2") ]))).
  - vm_compute. reflexivity.
  - reflexivity.
Defined.

(** C8: the job of every accepted submission starts with
    [uploadedBytes: 0], whatever the payload contains. *)
Theorem C8_uploaded_bytes_start_at_zero
    {Q : Type} `{!Queue Q} (env : Env) (req : Request) (q : Q) (resp : Response) :
  outcome (run (post_publish_youtube env req) q) = Fulfilled resp ->
  status resp = 200 ->
  exists data opts,
    enqueued (calls (run (post_publish_youtube env req) q))
      = [("youtube-upload", data, opts)] /\
    get_prop data "uploadedBytes" = Num (Int 0).
Proof.
  destruct (nullish (body req)) eqn:Hbody.
  - rewrite run_post_publish_nullish by assumption. discriminate.
  - rewrite run_post_publish by assumption. intros _ _.
    eexists _, _. split; reflexivity.
Qed.

Lemma C8_uploaded_bytes_start_at_zero_witness :
  get_prop Samples.tuned_body "uploadedBytes" = Num (Int 999) /\
  exists data opts,
    enqueued (calls Samples.tuned_run) = [("youtube-upload", data, opts)] /\
    get_prop data "uploadedBytes" = Num (Int 0).
Proof.
  split; [reflexivity |].
  apply (C8_uploaded_bytes_start_at_zero Samples.no_env (req_post Samples.tuned_body)
           MemQueue.empty (res_json (Obj [ ("jobId", Str "1") ]))).
  - vm_compute. reflexivity.
  - reflexivity.
Defined.

(** With the in-memory queue, the id a submission is answered with is the
    id under which the status endpoint finds the job. *)
Lemma mem_queue_submit_then_inspect (env : Env) (b : Value) (q : MemQueue.t) :
  nullish b = false ->
  let submit := run (post_publish_youtube env (req_post b)) q in
  let id := pretty (MemQueue.next q) in
  let job := {| job_id := id; job_data := upload_data env (fields_of b) |} in
  outcome submit = Fulfilled (res_json (Obj [ ("jobId", Str id) ])) /\
  outcome (run (get_jobs_id (req_get id)) (final submit))
    = Fulfilled (res_json (status_body job "queued" (Num (Int 0)))).
Proof.
  intros Hbody submit id job. subst submit.
  rewrite run_post_publish by assumption. split; [reflexivity |].
  cbn [final]. erewrite run_get_jobs_id_found; [reflexivity | ..].
  - cbn. unfold MemQueue.getJob. cbn. rewrite lookup_insert_eq. reflexivity.
  - cbn. unfold MemQueue.of_entry. cbn. rewrite lookup_insert_eq. reflexivity.
  - cbn. unfold MemQueue.of_entry. cbn. rewrite lookup_insert_eq. reflexivity.
Qed.

(** *** The status endpoint *)

(** C3, as stated, fails: the status of job 1 has the four fields [id],
    [state], [progress] and [data], the last being the job data as
    submitted. *)
Lemma C3_status_response_carries_job_data :
  let answered :=
    Obj [ ("id", Str "1"); ("state", Str "queued"); ("progress", Num (Int 0));
          ("data", upload_data Samples.no_env (fields_of Samples.upload_body)) ] in
  outcome Samples.status_run = Fulfilled (res_json answered) /\
  keys answered = ["id"; "state"; "progress"; "data"] /\
  ~ incl (keys answered) ["id"; "state"; "progress"; "error"].
Proof.
  cbv zeta. split; [vm_compute; reflexivity |]. split; [reflexivity |].
  intros Hsub.
  destruct (Hsub "data") as [Hin | [Hin | [Hin | [Hin | []]]]];
    [cbn; tauto | discriminate ..].
Qed.

(** C3, amended: for every existing job, the status response is a 200 with
    exactly the fields [id], [state], [progress] and [data]: the job's id,
    the state its [getState()] reports, its progress or 0, and the job
    data as stored. It has no [error] field. *)
Theorem C3_status_response_fields
    {Q : Type} `{!Queue Q} (req : Request) (q q1 q2 q3 : Q)
    (job : Job) (p : Value) (s : string) :
  perform (QueueGetJob (params_id req)) q = (Fulfilled (Some job), q1) ->
  perform (JobProgress job) q1 = (Fulfilled p, q2) ->
  perform (JobGetState job) q2 = (Fulfilled s, q3) ->
  outcome (run (get_jobs_id req) q)
  = Fulfilled {| status := 200;
                 json := Obj [ ("id", Str (job_id job));
                               ("state", Str s);
                               ("progress", if truthy p then p else Num (Int 0));
                               ("data", job_data job) ] |}.
Proof.
  intros Hget Hprogress Hstate.
  erewrite run_get_jobs_id_found by eassumption. reflexivity.
Qed.

Lemma C3_status_response_fields_witness :
  outcome Samples.status_run
  = Fulfilled {| status := 200;
                 json := Obj [ ("id", Str "1");
                               ("state", Str "queued");
                               ("progress", Num (Int 0));
                               ("data", upload_data Samples.no_env
                                          (fields_of Samples.upload_body)) ] |}.
Proof.
  apply (C3_status_response_fields (req_get "1")
           (final Samples.first_run) (final Samples.first_run)
           (final Samples.first_run) (final Samples.first_run)
           {| job_id := "1";
              job_data := upload_data Samples.no_env (fields_of Samples.upload_body) |}
           (Num (Int 0)) "queued");
    vm_compute; reflexivity.
Defined.

(** C9: a status inquiry for an id under which the queue has no job is
    answered 404 with the error message 'Job not found'. *)
Theorem C9_unknown_job_is_not_found
    {Q : Type} `{!Queue Q} (req : Request) (q q1 : Q) :
  perform (QueueGetJob (params_id req)) q = (Fulfilled None, q1) ->
  outcome (run (get_jobs_id req) q)
  = Fulfilled {| status := 404; json := Obj [ ("error", Str "Job not found") ] |}.
Proof.
  intros Hget. erewrite run_get_jobs_id_missing by eassumption. reflexivity.
Qed.

Lemma C9_unknown_job_is_not_found_witness :
  outcome (run (get_jobs_id (req_get "2")) (final Samples.first_run))
  = Fulfilled {| status := 404; json := Obj [ ("error", Str "Job not found") ] |}.
Proof.
  apply (C9_unknown_job_is_not_found (req_get "2")
           (final Samples.first_run) (final Samples.first_run)).
  vm_compute. reflexivity.
Defined.

(** C10: for every existing job whose progress is falsy ([null],
    [undefined], 0, ...), the status response reports progress 0; and
    whatever the progress, the field is neither [null] nor [undefined]. *)
Theorem C10_progress_defaults_to_zero
    {Q : Type} `{!Queue Q} (req : Request) (q q1 q2 q3 : Q)
    (job : Job) (p : Value) (s : string) :
  perform (QueueGetJob (params_id req)) q = (Fulfilled (Some job), q1) ->
  perform (JobProgress job) q1 = (Fulfilled p, q2) ->
  perform (JobGetState job) q2 = (Fulfilled s, q3) ->
  exists resp,
    outcome (run (get_jobs_id req) q) = Fulfilled resp /\
    (p = Null \/ p = Undefined \/ p = Num (Int 0) \/ truthy p = false ->
     get_prop (json resp) "progress" = Num (Int 0)) /\
    get_prop (json resp) "progress" <> Null /\
    get_prop (json resp) "progress" <> Undefined.
Proof.
  intros Hget Hprogress Hstate.
  erewrite run_get_jobs_id_found by eassumption.
  eexists. split; [reflexivity |]. cbn. unfold or_else.
  split; [| split].
  - intros [-> | [-> | [-> | ->]]]; reflexivity.
  - destruct (truthy p) eqn:Htruthy; [| discriminate].
    intros ->. discriminate.
  - destruct (truthy p) eqn:Htruthy; [| discriminate].
    intros ->. discriminate.
Qed.

Lemma C10_progress_defaults_to_zero_witness :
  exists resp,
    outcome (run (get_jobs_id (req_get "1")) Samples.null_progress) = Fulfilled resp /\
    (Null = Null \/ Null = Undefined \/ Null = Num (Int 0) \/ truthy Null = false ->
     get_prop (json resp) "progress" = Num (Int 0)) /\
    get_prop (json resp) "progress" <> Null /\
    get_prop (json resp) "progress" <> Undefined.
Proof.
  apply (C10_progress_defaults_to_zero (req_get "1")
           Samples.null_progress Samples.null_progress
           Samples.null_progress Samples.null_progress
           {| job_id := "1";
              job_data := upload_data Samples.no_env (fields_of Samples.upload_body) |}
           Null "queued");
    vm_compute; reflexivity.
Defined.

(** *** Progress reports *)

Module UploadProgressFacts.
Import UploadProgress.

(** One report neither lowers the offset nor lifts it above the total
    size, which it leaves alone. *)
Lemma reportProgress_step (pol : Policy) (b : N) (u : Upload) :
  (uploadedBytes u <= totalBytes u)%N ->
  let u' := (reportProgress pol b u).2 in
  (uploadedBytes u <= uploadedBytes u')%N /\
  (uploadedBytes u' <= totalBytes u')%N /\
  totalBytes u' = totalBytes u.
Proof.
  intros Hinv. destruct pol; cbn.
  - destruct (_ && _)%N eqn:Hok; cbn; [| lia].
    apply andb_prop in Hok as [Hlo Hhi].
    apply N.leb_le in Hlo, Hhi. lia.
  - lia.
Qed.

Lemma offsets_bounds (pol : Policy) (reports : list N) :
  forall u : Upload,
    (uploadedBytes u <= totalBytes u)%N ->
    Forall (fun o => uploadedBytes u <= o <= totalBytes u)%N (offsets pol reports u).
Proof.
  induction reports as [| b rest IH]; intros u Hinv; cbn [offsets]; [constructor |].
  destruct (reportProgress_step pol b u Hinv) as (Hup & Hinv' & Htotal).
  constructor; [lia |].
  eapply Forall_impl; [| apply IH, Hinv'].
  cbn. intros o Ho. lia.
Qed.

End UploadProgressFacts.

(** C7: starting from a job whose offset is within the file, the offsets
    recorded by any series of progress reports never decrease and never
    exceed the total size, and a report below the recorded offset leaves
    it as it was, by refusal or by clamping. *)
Theorem C7_progress_is_monotonic
    (pol : UploadProgress.Policy) (reports : list N) (u : UploadProgress.Upload) :
  (UploadProgress.uploadedBytes u <= UploadProgress.totalBytes u)%N ->
  let recorded := UploadProgress.uploadedBytes u :: UploadProgress.offsets pol reports u in
  StronglySorted N.le recorded /\
  Forall (fun o => o <= UploadProgress.totalBytes u)%N recorded /\
  forall lower : N,
    (lower < UploadProgress.uploadedBytes u)%N ->
    UploadProgress.uploadedBytes (UploadProgress.reportProgress pol lower u).2
    = UploadProgress.uploadedBytes u.
Proof.
  intros Hinv recorded. subst recorded. split; [| split].
  - revert u Hinv. induction reports as [| b rest IH]; intros u Hinv.
    + repeat constructor.
    + constructor.
      * cbn [UploadProgress.offsets].
        apply IH, (UploadProgressFacts.reportProgress_step pol b u Hinv).
      * eapply Forall_impl; [| apply UploadProgressFacts.offsets_bounds, Hinv].
        cbn. intros o Ho. lia.
  - constructor; [assumption |].
    eapply Forall_impl; [| apply UploadProgressFacts.offsets_bounds, Hinv].
    cbn. intros o Ho. lia.
  - intros lower Hlower. destruct pol; cbn.
    + destruct (_ && _)%N eqn:Hok; cbn; [| reflexivity].
      apply andb_prop in Hok as [Hlo _]. apply N.leb_le in Hlo. lia.
    + lia.
Qed.

Lemma C7_progress_is_monotonic_witness :
  let u := UploadProgress.created 20971520 in
  let reports := [8388608; 16777216; 4194304; 20971520; 30000000]%N in
  UploadProgress.offsets UploadProgress.Rejecting reports u
    = [8388608; 16777216; 16777216; 20971520; 20971520]%N /\
  StronglySorted N.le
    (UploadProgress.uploadedBytes u
       :: UploadProgress.offsets UploadProgress.Rejecting reports u) /\
  Forall (fun o => o <= UploadProgress.totalBytes u)%N
    (UploadProgress.uploadedBytes u
       :: UploadProgress.offsets UploadProgress.Rejecting reports u) /\
  forall lower : N,
    (lower < UploadProgress.uploadedBytes u)%N ->
    UploadProgress.uploadedBytes
      (UploadProgress.reportProgress UploadProgress.Rejecting lower u).2
    = UploadProgress.uploadedBytes u.
Proof.
  cbv zeta. split; [reflexivity |].
  apply (C7_progress_is_monotonic UploadProgress.Rejecting
           [8388608; 16777216; 4194304; 20971520; 30000000]%N
           (UploadProgress.created 20971520)).
  cbn. lia.
Defined.

(** ** Further properties of [src/index.js] *)

(** *** What the submission endpoint does and never does *)

(** X1: a request without a body ([req.body] undefined or null) is never
    answered: the destructuring throws a [TypeError] that names
    [req.body] before the [try] is entered, so nothing is asked of the
    queue and no response is sent. *)
Theorem post_publish_without_body_is_unanswered
    {Q : Type} `{!Queue Q} (env : Env) (req : Request) (q : Q) :
  nullish (body req) = true ->
  let r := run (post_publish_youtube env req) q in
  outcome r = Rejected (cannot_destructure (body req)) /\
  name (cannot_destructure (body req)) = "TypeError" /\
  calls r = [] /\
  final r = q.
Proof.
  intros Hbody r. subst r. rewrite run_post_publish_nullish by assumption.
  repeat split.
Qed.

Lemma post_publish_without_body_is_unanswered_witness :
  let r := run (post_publish_youtube Samples.no_env (req_post Null)) MemQueue.empty in
  outcome r
    = Rejected {| name := "TypeError";
                  message := "Cannot destructure property 'accountId' of 'req.body' as it is null." |} /\
  name (cannot_destructure Null) = "TypeError" /\
  calls r = [] /\
  final r = MemQueue.empty.
Proof.
  apply (post_publish_without_body_is_unanswered Samples.no_env (req_post Null)
           MemQueue.empty).
  reflexivity.
Defined.

(** X2: the job data is built from a fixed list of fields: it has the seven
    properties of the handler in their order whatever else the payload
    contains, the five payload fields are copied as they are (missing
    ones [undefined]), and the options are [attempts] and [backoff]. *)
Theorem post_publish_forwards_known_fields_only
    {Q : Type} `{!Queue Q} (env : Env) (req : Request) (q : Q) :
  nullish (body req) = false ->
  exists data opts,
    enqueued (calls (run (post_publish_youtube env req) q))
      = [("youtube-upload", data, opts)] /\
    keys data = ["accountId"; "filePath"; "thumbnailPath"; "metadata";
                 "idempotencyKey"; "uploadedBytes"; "chunkSize"] /\
    keys opts = ["attempts"; "backoff"] /\
    forall k,
      In k ["accountId"; "filePath"; "thumbnailPath"; "metadata"; "idempotencyKey"] ->
      get_prop data k = get_prop (body req) k.
Proof.
  intros Hbody. rewrite run_post_publish by assumption.
  eexists _, _. split; [reflexivity |]. split; [reflexivity |].
  split; [reflexivity |].
  intros k [<- | [<- | [<- | [<- | [<- | []]]]]]; reflexivity.
Qed.

Lemma post_publish_forwards_known_fields_only_witness :
  exists data opts,
    enqueued (calls Samples.tuned_run) = [("youtube-upload", data, opts)] /\
    keys data = ["accountId"; "filePath"; "thumbnailPath"; "metadata";
                 "idempotencyKey"; "uploadedBytes"; "chunkSize"] /\
    keys opts = ["attempts"; "backoff"] /\
    forall k,
      In k ["accountId"; "filePath"; "thumbnailPath"; "metadata"; "idempotencyKey"] ->
      get_prop data k = get_prop Samples.tuned_body k.
Proof.
  apply (post_publish_forwards_known_fields_only Samples.no_env
           (req_post Samples.tuned_body) MemQueue.empty).
  reflexivity.
Defined.

(** X3: whenever the submission handler answers, it is in one of two
    ways: [queue.add] returned a job and the answer is 200 with exactly
    [{ jobId }], that job's id; or [queue.add] failed and the answer is 400
    with exactly [{ error }], the message of that error. *)
Theorem post_publish_answers_200_or_400
    {Q : Type} `{!Queue Q} (env : Env) (req : Request) (q : Q) (resp : Response) :
  outcome (run (post_publish_youtube env req) q) = Fulfilled resp ->
  let add :=
    QueueAdd "youtube-upload" (upload_data env (fields_of (body req))) (upload_opts env) in
  (exists job,
     (perform add q).1 = Fulfilled job /\
     resp = {| status := 200; json := Obj [ ("jobId", Str (job_id job)) ] |}) \/
  (exists error,
     (perform add q).1 = Rejected error /\
     resp = {| status := 400; json := Obj [ ("error", Str (message error)) ] |}).
Proof.
  destruct (nullish (body req)) eqn:Hbody.
  - rewrite run_post_publish_nullish by assumption. discriminate.
  - rewrite run_post_publish by assumption. cbn [outcome]. unfold add_call.
    intros Hresp. cbv zeta.
    destruct (perform _ q).1 as [job | err];
      injection Hresp as <-; [left | right]; eexists; split; reflexivity.
Qed.

Lemma post_publish_answers_200_or_400_witness :
  let add :=
    QueueAdd "youtube-upload"
      (upload_data Samples.no_env (fields_of Samples.upload_body))
      (upload_opts Samples.no_env) in
  let resp := res_status_json 400 (Obj [ ("error", Str "Connection is closed.") ]) in
  (exists job,
     (perform add (Flaky.after_submission 0)).1 = Fulfilled job /\
     resp = {| status := 200; json := Obj [ ("jobId", Str (job_id job)) ] |}) \/
  (exists error,
     (perform add (Flaky.after_submission 0)).1 = Rejected error /\
     resp = {| status := 400; json := Obj [ ("error", Str (message error)) ] |}).
Proof.
  apply (post_publish_answers_200_or_400 Samples.no_env
           (req_post Samples.upload_body) (Flaky.after_submission 0)).
  reflexivity.
Defined.

(** *** What the status endpoint does and never does *)

(** Every way a run of the status handler can go, by the answers of the
    queue. *)
Lemma run_get_jobs_id_cases
    {Q : Type} `{!Queue Q} (req : Request) (q : Q) :
  let r := run (get_jobs_id req) q in
  let asked := QueueGetJob (params_id req) in
  match perform asked q with
  | (Rejected e, q1) =>
      r = {| outcome := Rejected e; final := q1; calls := [asked] |}
  | (Fulfilled None, q1) =>
      r = {| outcome := Fulfilled (res_status_json 404 (Obj [ ("error", Str "Job not found") ]));
             final := q1; calls := [asked] |}
  | (Fulfilled (Some job), q1) =>
      match perform (JobProgress job) q1 with
      | (Rejected e, q2) =>
          r = {| outcome := Rejected e; final := q2;
                 calls := [asked; JobProgress job] |}
      | (Fulfilled p, q2) =>
          match perform (JobGetState job) q2 with
          | (Rejected e, q3) =>
              r = {| outcome := Rejected e; final := q3;
                     calls := [asked; JobProgress job; JobGetState job] |}
          | (Fulfilled s, q3) =>
              r = {| outcome := Fulfilled (res_json (status_body job s p)); final := q3;
                     calls := [asked; JobProgress job; JobGetState job] |}
          end
      end
  end.
Proof.
  cbv zeta. unfold get_jobs_id. unfold_async.
  destruct (perform (QueueGetJob (params_id req)) q) as [[[job |] | e] q1];
    [| reflexivity | reflexivity].
  unfold_async.
  destruct (perform (JobProgress job) q1) as [[p | e] q2]; [| reflexivity].
  unfold_async.
  destruct (perform (JobGetState job) q2) as [[s | e] q3]; reflexivity.
Qed.

(** X4: the status handler catches nothing: it fails to answer exactly when
    one of its queue calls fails, at [queue.getJob], at [job.progress()]
    or at [job.getState()], and it fails with that call's error. *)
Theorem get_jobs_id_unanswered_iff_queue_fails
    {Q : Type} `{!Queue Q} (req : Request) (q : Q) (e : Error) :
  outcome (run (get_jobs_id req) q) = Rejected e
  <->
  (perform (QueueGetJob (params_id req)) q).1 = Rejected e \/
  exists job q1,
    perform (QueueGetJob (params_id req)) q = (Fulfilled (Some job), q1) /\
    ((perform (JobProgress job) q1).1 = Rejected e \/
     exists p q2,
       perform (JobProgress job) q1 = (Fulfilled p, q2) /\
       (perform (JobGetState job) q2).1 = Rejected e).
Proof.
  pose proof (run_get_jobs_id_cases req q) as Hrun. cbv zeta in Hrun.
  destruct (perform (QueueGetJob (params_id req)) q) as [[[job |] | e0] q1].
  - destruct (perform (JobProgress job) q1) as [[p | e1] q2] eqn:Hprogress.
    + destruct (perform (JobGetState job) q2) as [[s | e2] q3] eqn:Hstate;
        rewrite Hrun; cbn; split.
      * discriminate.
      * intros [Hno | (job' & q1' & [= <- <-] & [Hno | (p' & q2' & Hp & Hno)])].
        -- discriminate.
        -- rewrite Hprogress in Hno. discriminate.
        -- rewrite Hprogress in Hp. injection Hp as <- <-.
           rewrite Hstate in Hno. discriminate.
      * intros [= <-]. right. exists job, q1. split; [reflexivity |].
        right. exists p, q2. rewrite Hprogress, Hstate. split; reflexivity.
      * intros [Hno | (job' & q1' & [= <- <-] & [Hno | (p' & q2' & Hp & Hno)])].
        -- discriminate.
        -- rewrite Hprogress in Hno. discriminate.
        -- rewrite Hprogress in Hp. injection Hp as <- <-.
           rewrite Hstate in Hno. cbn in Hno. congruence.
    + rewrite Hrun; cbn; split.
      * intros [= <-]. right. exists job, q1. split; [reflexivity |].
        left. rewrite Hprogress. reflexivity.
      * intros [Hno | (job' & q1' & [= <- <-] & [Hno | (p' & q2' & Hp & Hno)])].
        -- discriminate.
        -- rewrite Hprogress in Hno. cbn in Hno. congruence.
        -- rewrite Hprogress in Hp. discriminate.
  - rewrite Hrun; cbn; split.
    + discriminate.
    + intros [Hno | (job' & q1' & Hno & _)]; discriminate.
  - rewrite Hrun; cbn; split.
    + intros [= <-]. left. reflexivity.
    + intros [Hno | (job' & q1' & Hno & _)]; [congruence | discriminate].
Qed.

(** X5: when [job.progress()] fails, the handler stops there: [job.getState()]
    is never called and no response is sent. *)
Theorem get_jobs_id_stops_at_failed_progress
    {Q : Type} `{!Queue Q} (req : Request) (q q1 q2 : Q) (job : Job) (e : Error) :
  perform (QueueGetJob (params_id req)) q = (Fulfilled (Some job), q1) ->
  perform (JobProgress job) q1 = (Rejected e, q2) ->
  run (get_jobs_id req) q
  = {| outcome := Rejected e; final := q2;
       calls := [QueueGetJob (params_id req); JobProgress job] |}.
Proof.
  intros Hget Hprogress.
  pose proof (run_get_jobs_id_cases req q) as Hrun. cbv zeta in Hrun.
  rewrite Hget, Hprogress in Hrun. exact Hrun.
Qed.

Lemma get_jobs_id_stops_at_failed_progress_witness :
  let job := {| job_id := "1";
                job_data := upload_data Samples.no_env (fields_of Samples.upload_body) |} in
  run (get_jobs_id (req_get "1")) (Flaky.after_submission 1)
  = {| outcome := Rejected Unreachable.closed; final := Flaky.after_submission 0;
       calls := [QueueGetJob "1"; JobProgress job] |}.
Proof.
  apply (get_jobs_id_stops_at_failed_progress (req_get "1")
           (Flaky.after_submission 1) (Flaky.after_submission 0)
           (Flaky.after_submission 0)); vm_compute; reflexivity.
Defined.

(** X6: the status handler only reads: it never calls [queue.add], it makes at
    most three calls, and the first one is [queue.getJob] with the id of
    the route. *)
Theorem get_jobs_id_only_reads
    {Q : Type} `{!Queue Q} (req : Request) (q : Q) :
  enqueued (calls (run (get_jobs_id req) q)) = [] /\
  (length (calls (run (get_jobs_id req) q)) <= 3)%nat /\
  head (calls (run (get_jobs_id req) q)) = Some (QueueGetJob (params_id req)).
Proof.
  pose proof (run_get_jobs_id_cases req q) as Hrun. cbv zeta in Hrun.
  destruct (perform (QueueGetJob (params_id req)) q) as [[[job |] | e0] q1].
  - destruct (perform (JobProgress job) q1) as [[p | e1] q2].
    + destruct (perform (JobGetState job) q2) as [[s | e2] q3];
        rewrite Hrun; cbn; repeat split; lia.
    + rewrite Hrun; cbn; repeat split; lia.
  - rewrite Hrun; cbn; repeat split; lia.
  - rewrite Hrun; cbn; repeat split; lia.
Qed.

(** X7: whenever the status handler answers, the answer is a 404 with the one
    field [error] because [queue.getJob] found nothing, or a 200 whose [id]
    and [data] are those of the job [queue.getJob] returned. *)
Theorem get_jobs_id_answers_200_or_404
    {Q : Type} `{!Queue Q} (req : Request) (q : Q) (resp : Response) :
  outcome (run (get_jobs_id req) q) = Fulfilled resp ->
  (status resp = 404 /\
   (perform (QueueGetJob (params_id req)) q).1 = Fulfilled None /\
   keys (json resp) = ["error"]) \/
  (status resp = 200 /\
   exists job,
     (perform (QueueGetJob (params_id req)) q).1 = Fulfilled (Some job) /\
     get_prop (json resp) "id" = Str (job_id job) /\
     get_prop (json resp) "data" = job_data job).
Proof.
  pose proof (run_get_jobs_id_cases req q) as Hrun. cbv zeta in Hrun.
  destruct (perform (QueueGetJob (params_id req)) q) as [[[job |] | e0] q1].
  - destruct (perform (JobProgress job) q1) as [[p | e1] q2].
    + destruct (perform (JobGetState job) q2) as [[s | e2] q3];
        rewrite Hrun; cbn [outcome]; [| discriminate].
      intros [= <-]. right. split; [reflexivity |].
      exists job. repeat split; reflexivity.
    + rewrite Hrun. discriminate.
  - rewrite Hrun. intros [= <-]. left. repeat split; reflexivity.
  - rewrite Hrun. discriminate.
Qed.

Lemma get_jobs_id_answers_200_or_404_witness :
  let resp := res_status_json 404 (Obj [ ("error", Str "Job not found") ]) in
  (status resp = 404 /\
   (perform (QueueGetJob "9") (final Samples.first_run)).1 = Fulfilled None /\
   keys (json resp) = ["error"]) \/
  (status resp = 200 /\
   exists job,
     (perform (QueueGetJob "9") (final Samples.first_run)).1 = Fulfilled (Some job) /\
     get_prop (json resp) "id" = Str (job_id job) /\
     get_prop (json resp) "data" = job_data job).
Proof.
  apply (get_jobs_id_answers_200_or_404 (req_get "9") (final Samples.first_run)).
  vm_compute. reflexivity.
Defined.

(** *** How the configuration is read *)

Module ParseIntFacts.

Lemma digit_val_pretty_N_char (d : N) :
  (d < 10)%N -> digit_val (pretty_N_char d) = Some (Z.of_N d).
Proof.
  intros Hd.
  assert (d = 0 \/ d = 1 \/ d = 2 \/ d = 3 \/ d = 4 \/ d = 5 \/ d = 6 \/ d = 7
          \/ d = 8 \/ d = 9)%N as Hcases by lia.
  destruct Hcases as [-> | [-> | [-> | [-> | [-> | [-> | [-> | [-> | [-> | ->]]]]]]]]];
    reflexivity.
Qed.

(** A positive number is printed with a leading digit from 1 to 9. *)
Lemma pretty_N_go_head (x : N) :
  forall s : string,
    (0 < x)%N ->
    exists k rest, (1 <= k <= 9)%N /\ pretty_N_go x s = String (pretty_N_char k) rest.
Proof.
  induction (N.lt_wf_0 x) as [x _ IH]. intros s Hx.
  rewrite pretty_N_go_step by assumption.
  destruct (decide (x `div` 10 = 0)%N) as [Hsmall | Hbig].
  - rewrite Hsmall, pretty_N_go_0.
    apply N.div_small_iff in Hsmall; [| lia].
    exists (x `mod` 10)%N, s. rewrite N.mod_small by assumption.
    split; [lia | reflexivity].
  - apply IH; [apply N.div_lt; lia | apply N.neq_0_lt_0; assumption].
Qed.

(** Reading back the digits of a printed number gives the number. *)
Lemma digits_pretty_N_go (x : N) :
  forall (s : string) (acc : option Z),
    (0 < x)%N -> default 0 acc = 0 ->
    digits 10 (pretty_N_go x s) acc = digits 10 s (Some (Z.of_N x)).
Proof.
  induction (N.lt_wf_0 x) as [x _ IH]. intros s acc Hx Hacc.
  rewrite pretty_N_go_step by assumption.
  assert (Hdigit : (x `mod` 10 < 10)%N) by (apply N.mod_lt; lia).
  assert (Hsplit : Z.of_N x = Z.of_N (x `div` 10) * 10 + Z.of_N (x `mod` 10)).
  { rewrite (N.div_mod x 10) at 1 by lia. lia. }
  destruct (decide (x `div` 10 = 0)%N) as [Hsmall | Hbig].
  - rewrite Hsmall, pretty_N_go_0. cbn [digits].
    rewrite digit_val_pretty_N_char by assumption.
    replace (Z.of_N (x `mod` 10) <? 10) with true by (symmetry; apply Z.ltb_lt; lia).
    rewrite Hacc, Hsplit, Hsmall. reflexivity.
  - rewrite IH; [| apply N.div_lt; lia | apply N.neq_0_lt_0; assumption | assumption].
    cbn [digits]. rewrite digit_val_pretty_N_char by assumption.
    replace (Z.of_N (x `mod` 10) <? 10) with true by (symmetry; apply Z.ltb_lt; lia).
    rewrite Hsplit. reflexivity.
Qed.

Lemma pretty_N_go_app (x : N) :
  forall s t : string, pretty_N_go x s +:+ t = pretty_N_go x (s +:+ t).
Proof.
  induction (N.lt_wf_0 x) as [x _ IH]. intros s t.
  destruct (decide (x = 0)%N) as [-> | Hx].
  - rewrite !pretty_N_go_0. reflexivity.
  - rewrite (pretty_N_go_step x s), (pretty_N_go_step x (s +:+ t)) by lia.
    rewrite IH by (apply N.div_lt; lia). reflexivity.
Qed.

(** The integers up to 2^53 are doubles. *)
Lemma nearest_double_exact (v : Z) :
  0 <= v <= 9007199254740992 -> nearest_double v = Some v.
Proof.
  intros Hv. unfold nearest_double.
  destruct (v <? 9007199254740992) eqn:Hlt; [reflexivity |].
  apply Z.ltb_ge in Hlt.
  assert (v = 9007199254740992) as -> by lia. reflexivity.
Qed.

Lemma of_integer_exact (sign v : Z) :
  0 <= v <= 9007199254740992 -> of_integer sign v = Int (sign * v).
Proof.
  intros Hv. unfold of_integer. rewrite nearest_double_exact by assumption.
  reflexivity.
Qed.

(** [parseInt] on a string that starts with a digit from 1 to 9 reads
    decimal digits, with no sign and no prefix. *)
Lemma parseInt_leading_digit (k : N) (rest : string) :
  (1 <= k <= 9)%N ->
  parseInt (String (pretty_N_char k) rest)
  = match digits 10 (String (pretty_N_char k) rest) None with
    | None => NaN
    | Some v => of_integer 1 v
    end.
Proof.
  intros Hk.
  assert (k = 1 \/ k = 2 \/ k = 3 \/ k = 4 \/ k = 5 \/ k = 6 \/ k = 7 \/ k = 8 \/ k = 9)%N
    as Hcases by lia.
  destruct Hcases as [-> | [-> | [-> | [-> | [-> | [-> | [-> | [-> | ->]]]]]]]];
    reflexivity.
Qed.

Lemma parseInt_minus_leading_digit (k : N) (rest : string) :
  (1 <= k <= 9)%N ->
  parseInt (String "-" (String (pretty_N_char k) rest))
  = match digits 10 (String (pretty_N_char k) rest) None with
    | None => NaN
    | Some v => of_integer (-1) v
    end.
Proof.
  intros Hk.
  assert (k = 1 \/ k = 2 \/ k = 3 \/ k = 4 \/ k = 5 \/ k = 6 \/ k = 7 \/ k = 8 \/ k = 9)%N
    as Hcases by lia.
  destruct Hcases as [-> | [-> | [-> | [-> | [-> | [-> | [-> | [-> | ->]]]]]]]];
    reflexivity.
Qed.

(** The decimal rendering of a number that is a double parses back to
    it. *)
Lemma parseInt_pretty (n : N) :
  (n <= 9007199254740992)%N -> parseInt (pretty n) = Int (Z.of_N n).
Proof.
  intros Hn'. unfold pretty, pretty_N.
  destruct (decide (n = 0)%N) as [-> | Hn]; [reflexivity |].
  destruct (pretty_N_go_head n "" ltac:(lia)) as (k & rest & Hk & Hhead).
  rewrite Hhead, parseInt_leading_digit by assumption.
  rewrite <- Hhead, digits_pretty_N_go by (reflexivity || lia).
  cbn [digits]. rewrite of_integer_exact by lia. f_equal; lia.
Qed.

Lemma parseInt_minus_pretty (n : N) :
  (n <= 9007199254740992)%N ->
  parseInt (String "-" (pretty n)) = Int (- Z.of_N n).
Proof.
  intros Hn'. unfold pretty, pretty_N.
  destruct (decide (n = 0)%N) as [-> | Hn]; [reflexivity |].
  destruct (pretty_N_go_head n "" ltac:(lia)) as (k & rest & Hk & Hhead).
  rewrite Hhead, parseInt_minus_leading_digit by assumption.
  rewrite <- Hhead, digits_pretty_N_go by (reflexivity || lia).
  cbn [digits]. rewrite of_integer_exact by lia. f_equal; lia.
Qed.

Lemma digits_stop (c : ascii) (rest : string) (acc : option Z) :
  is_decimal c = false -> digits 10 (String c rest) acc = acc.
Proof.
  unfold is_decimal. intros Hc. cbn [digits].
  destruct (digit_val c) as [d |]; [rewrite Hc |]; reflexivity.
Qed.

(** [parseInt] reads the leading digits and ignores what follows them. *)
Lemma parseInt_pretty_suffix (n : N) (c : ascii) (rest : string) :
  (n <= 9007199254740992)%N ->
  is_decimal c = false ->
  (n = 0%N -> c <> "x"%char /\ c <> "X"%char) ->
  parseInt (pretty n +:+ String c rest) = Int (Z.of_N n).
Proof.
  intros Hn' Hc Hhex. unfold pretty, pretty_N.
  destruct (decide (n = 0)%N) as [-> | Hn].
  - destruct (Hhex eq_refl) as [Hx HX]. revert Hc Hx HX.
    destruct c as [[] [] [] [] [] [] [] []];
      intros Hc Hx HX; try discriminate Hc; try (exfalso; congruence);
      reflexivity.
  - rewrite pretty_N_go_app. change ("" +:+ String c rest) with (String c rest).
    destruct (pretty_N_go_head n (String c rest) ltac:(lia))
      as (k & rest' & Hk & Hhead).
    rewrite Hhead, parseInt_leading_digit by assumption.
    rewrite <- Hhead, digits_pretty_N_go by (reflexivity || lia).
    rewrite digits_stop by assumption.
    rewrite of_integer_exact by lia. f_equal; lia.
Qed.

(** A string that, past its leading white space, starts with neither a
    sign nor a digit is not a number. *)
Lemma parseInt_not_a_number (s : string) :
  starts_number s = false -> parseInt s = NaN.
Proof.
  unfold starts_number, parseInt.
  destruct (trim_start s) as [| c rest]; [reflexivity |].
  destruct c as [[] [] [] [] [] [] [] []];
    intros Hstart; try discriminate Hstart; reflexivity.
Qed.

Lemma pretty_N_not_empty (n : N) : String.eqb (pretty n) "" = false.
Proof.
  unfold pretty, pretty_N. destruct (decide (n = 0)%N) as [-> | Hn]; [reflexivity |].
  destruct (pretty_N_go_head n "" ltac:(lia)) as (k & rest & _ & ->). reflexivity.
Qed.

End ParseIntFacts.

(** X8: a chunk size and a retry count written in decimal are the ones
    the job gets, as long as they are at most 2^53 and so are doubles:
    [CHUNK_SIZE] set to the digits of [n] gives [chunkSize: n],
    [MAX_RETRIES] set to the digits of [m] gives [attempts: m], also for
    0, which is not replaced by the default. *)
Theorem configured_decimals_reach_the_job
    {Q : Type} `{!Queue Q} (env : Env) (req : Request) (q : Q) (n m : N) :
  (n <= 9007199254740992)%N ->
  (m <= 9007199254740992)%N ->
  env !! "CHUNK_SIZE" = Some (pretty n) ->
  env !! "MAX_RETRIES" = Some (pretty m) ->
  nullish (body req) = false ->
  exists data opts,
    enqueued (calls (run (post_publish_youtube env req) q))
      = [("youtube-upload", data, opts)] /\
    get_prop data "chunkSize" = Num (Int (Z.of_N n)) /\
    get_prop opts "attempts" = Num (Int (Z.of_N m)).
Proof.
  intros Hn Hm Hchunk Hretries Hbody. rewrite run_post_publish by assumption.
  eexists _, _. split; [reflexivity |].
  cbn. unfold env_or. rewrite Hchunk, Hretries.
  rewrite !ParseIntFacts.pretty_N_not_empty.
  rewrite !ParseIntFacts.parseInt_pretty by assumption.
  split; reflexivity.
Qed.

Lemma configured_decimals_reach_the_job_witness :
  exists data opts,
    enqueued (calls (run (post_publish_youtube
                            (<["MAX_RETRIES" := "0"]> {[ "CHUNK_SIZE" := "1048576" ]})
                            (req_post Samples.upload_body)) MemQueue.empty))
      = [("youtube-upload", data, opts)] /\
    get_prop data "chunkSize" = Num (Int (Z.of_N 1048576)) /\
    get_prop opts "attempts" = Num (Int (Z.of_N 0)).
Proof.
  apply (configured_decimals_reach_the_job
           (<["MAX_RETRIES" := "0"]> {[ "CHUNK_SIZE" := "1048576" ]})
           (req_post Samples.upload_body) MemQueue.empty 1048576 0);
    vm_compute; (reflexivity || discriminate).
Defined.

(** X9: only the leading digits of [CHUNK_SIZE] count: whatever follows
    them, a unit such as [MB] included, is dropped without complaint, so
    that ['8MB'] asks for chunks of 8 bytes. This is stated for digits
    that spell a number of at most 2^53; after a lone [0], an [x] would
    start a hexadecimal number instead. *)
Theorem chunk_size_drops_what_follows_the_digits
    {Q : Type} `{!Queue Q} (env : Env) (req : Request) (q : Q)
    (n : N) (c : ascii) (rest : string) :
  (n <= 9007199254740992)%N ->
  env !! "CHUNK_SIZE" = Some (pretty n +:+ String c rest) ->
  is_decimal c = false ->
  (n = 0%N -> c <> "x"%char /\ c <> "X"%char) ->
  nullish (body req) = false ->
  exists data opts,
    enqueued (calls (run (post_publish_youtube env req) q))
      = [("youtube-upload", data, opts)] /\
    get_prop data "chunkSize" = Num (Int (Z.of_N n)).
Proof.
  intros Hn Hchunk Hc Hhex Hbody. rewrite run_post_publish by assumption.
  eexists _, _. split; [reflexivity |].
  assert (Hfull : String.eqb (pretty n +:+ String c rest) "" = false).
  { destruct (pretty n); reflexivity. }
  cbn. unfold env_or. rewrite Hchunk, Hfull.
  rewrite ParseIntFacts.parseInt_pretty_suffix by assumption. reflexivity.
Qed.

Lemma chunk_size_drops_what_follows_the_digits_witness :
  exists data opts,
    enqueued (calls (run (post_publish_youtube {[ "CHUNK_SIZE" := "8MB" ]}
                            (req_post Samples.upload_body)) MemQueue.empty))
      = [("youtube-upload", data, opts)] /\
    get_prop data "chunkSize" = Num (Int (Z.of_N 8)).
Proof.
  apply (chunk_size_drops_what_follows_the_digits {[ "CHUNK_SIZE" := "8MB" ]}
           (req_post Samples.upload_body) MemQueue.empty 8 "M"%char "B").
  - vm_compute. discriminate.
  - vm_compute. reflexivity.
  - reflexivity.
  - intros Hzero. discriminate Hzero.
  - reflexivity.
Defined.

(** X10: a negative [CHUNK_SIZE] is taken as it is: for a minus sign
    followed by the digits of a number of at most 2^53, the job is
    enqueued with that negative chunk size. *)
Theorem negative_chunk_size_is_enqueued
    {Q : Type} `{!Queue Q} (env : Env) (req : Request) (q : Q) (n : N) :
  (n <= 9007199254740992)%N ->
  env !! "CHUNK_SIZE" = Some (String "-" (pretty n)) ->
  nullish (body req) = false ->
  exists data opts,
    enqueued (calls (run (post_publish_youtube env req) q))
      = [("youtube-upload", data, opts)] /\
    get_prop data "chunkSize" = Num (Int (- Z.of_N n)).
Proof.
  intros Hn Hchunk Hbody. rewrite run_post_publish by assumption.
  eexists _, _. split; [reflexivity |].
  cbn. unfold env_or. rewrite Hchunk.
  change (String.eqb (String "-" (pretty n)) "") with false. cbv iota.
  rewrite ParseIntFacts.parseInt_minus_pretty by assumption. reflexivity.
Qed.

Lemma negative_chunk_size_is_enqueued_witness :
  exists data opts,
    enqueued (calls (run (post_publish_youtube {[ "CHUNK_SIZE" := "-1024" ]}
                            (req_post Samples.upload_body)) MemQueue.empty))
      = [("youtube-upload", data, opts)] /\
    get_prop data "chunkSize" = Num (Int (- Z.of_N 1024)).
Proof.
  apply (negative_chunk_size_is_enqueued {[ "CHUNK_SIZE" := "-1024" ]}
           (req_post Samples.upload_body) MemQueue.empty 1024);
    vm_compute; (reflexivity || discriminate).
Defined.

(** X11: the configuration is not validated: when [CHUNK_SIZE] or
    [MAX_RETRIES] is not empty and, past its leading white space, starts
    with neither a sign nor a digit, the job is still enqueued, with [NaN]
    as its chunk size or attempt count. *)
Theorem unparsable_configuration_gives_NaN
    {Q : Type} `{!Queue Q} (env : Env) (req : Request) (q : Q) :
  nullish (body req) = false ->
  exists data opts,
    enqueued (calls (run (post_publish_youtube env req) q))
      = [("youtube-upload", data, opts)] /\
    forall v : string,
      v <> "" -> starts_number v = false ->
      (env !! "CHUNK_SIZE" = Some v -> get_prop data "chunkSize" = Num NaN) /\
      (env !! "MAX_RETRIES" = Some v -> get_prop opts "attempts" = Num NaN).
Proof.
  intros Hbody. rewrite run_post_publish by assumption.
  eexists _, _. split; [reflexivity |].
  intros v Hfull Hstart. apply String.eqb_neq in Hfull.
  cbn. unfold env_or. split; intros ->; rewrite Hfull;
    rewrite ParseIntFacts.parseInt_not_a_number by assumption; reflexivity.
Qed.

Lemma unparsable_configuration_gives_NaN_witness :
  exists data opts,
    enqueued (calls (run (post_publish_youtube {[ "MAX_RETRIES" := "five" ]}
                            (req_post Samples.upload_body)) MemQueue.empty))
      = [("youtube-upload", data, opts)] /\
    forall v : string,
      v <> "" -> starts_number v = false ->
      (({[ "MAX_RETRIES" := "five" ]} : Env) !! "CHUNK_SIZE" = Some v ->
       get_prop data "chunkSize" = Num NaN) /\
      (({[ "MAX_RETRIES" := "five" ]} : Env) !! "MAX_RETRIES" = Some v ->
       get_prop opts "attempts" = Num NaN).
Proof.
  apply (unparsable_configuration_gives_NaN {[ "MAX_RETRIES" := "five" ]}
           (req_post Samples.upload_body) MemQueue.empty).
  reflexivity.
Defined.

(** The configuration of the witness above is of the kind the theorem
    is about, and one that starts with a no-break space before its digits
    is not: its white space is stripped and the digits are read. *)
Example starts_number_samples :
  starts_number "five" = false /\
  parseInt (String (ascii_of_N 194) (String (ascii_of_N 160) "12")) = Int 12 /\
  parseInt "9007199254740993" = Int 9007199254740992 /\
  parseInt "-9007199254740993" = Int (-9007199254740992) /\
  parseInt "0x1F" = Int 31.
Proof. vm_compute. repeat split. Qed.

(** X12: the server always has a port: [PORT] is the string of the environment
    when that is set and not empty, the number 3000 otherwise, and in
    neither case falsy. *)
Theorem PORT_defaults_to_3000 (env : Env) :
  truthy (PORT env) = true /\
  (PORT env = Num (Int 3000) <-> not_configured env "PORT") /\
  (forall s, env !! "PORT" = Some s -> s <> "" -> PORT env = Str s).
Proof.
  unfold PORT, or_else, env_value, not_configured.
  destruct (env !! "PORT") as [s |] eqn:Hport; cbn.
  - destruct (String.eqb s "") eqn:Hempty; cbn; rewrite ?Hempty; cbn.
    + apply String.eqb_eq in Hempty as ->.
      split; [reflexivity |]. split; [split; auto |].
      intros s [= <-] Hne. congruence.
    + apply String.eqb_neq in Hempty.
      split; [reflexivity |]. split.
      * split; [discriminate | intros [Hno | [= Hs]]; congruence].
      * intros s' [= <-] _. reflexivity.
  - split; [reflexivity |]. split; [split; auto | discriminate].
Qed.
